(** * Book Discovery App: the search and recommendation engine

    A shallow embedding of [src/book_search_app.py] (class [BookSearchApp]).
    The PyQt6 widgets are modelled by the part of their state the methods
    read and write: the text of the line edit and of the labels, the rows
    of the two tables and the index of the current tab.  Fonts, alignment
    flags, column widths, cell spans and [print] calls carry no data and
    are left out.

    Strings.  A Python [str] is a sequence of code points.  Every literal
    of the program lies in the Latin-1 range (the only character above
    127 is U+00EB in the author of "Jane Eyre"), so a string is modelled
    as a [string] whose characters are the code points 0..255;
    [str.lower] and [str.strip] are given their Python behaviour on that
    range. *)

From Stdlib Require Import Ascii NArith.
From stdpp Require Import base tactics option list strings gmap.

(** ** Python string operations, on code points 0..255 *)

Module Py.

(** [c.lower()] for one code point: A-Z, and U+00C0..U+00DE without the
    multiplication sign U+00D7, move up by 32; the rest is unchanged. *)
Definition lower_char (c : ascii) : ascii :=
  let n := N_of_ascii c in
  if (((65 <=? n) && (n <=? 90)) ||
      ((192 <=? n) && (n <=? 222) && negb (n =? 215)))%N
  then ascii_of_N (n + 32) else c.

(** [s.lower()] *)
Fixpoint lower (s : string) : string :=
  match s with
  | EmptyString => EmptyString
  | String c s' => String (lower_char c) (lower s')
  end.

(** [c.isspace()]: TAB..CR, FS..US, space, NEL (U+0085), NBSP (U+00A0). *)
Definition isspace (c : ascii) : bool :=
  let n := N_of_ascii c in
  (((9 <=? n) && (n <=? 13)) || ((28 <=? n) && (n <=? 32)) ||
   (n =? 133) || (n =? 160))%N.

Fixpoint lstrip (s : string) : string :=
  match s with
  | EmptyString => EmptyString
  | String c s' => if isspace c then lstrip s' else s
  end.

Fixpoint rstrip (s : string) : string :=
  match s with
  | EmptyString => EmptyString
  | String c s' =>
      match rstrip s' with
      | EmptyString => if isspace c then EmptyString else String c EmptyString
      | r => String c r
      end
  end.

(** [s.strip()]: leading and trailing white space removed. *)
Definition strip (s : string) : string := rstrip (lstrip s).

(** [s.startswith(p)] *)
Fixpoint startswith (p s : string) : bool :=
  match p, s with
  | EmptyString, _ => true
  | String a p', String b s' => bool_decide (a = b) && startswith p' s'
  | String _ _, EmptyString => false
  end.

(** [sub in s] on strings: [sub] occurs in [s] at some position. *)
Fixpoint contains (sub s : string) : bool :=
  startswith sub s ||
  match s with
  | EmptyString => false
  | String _ s' => contains sub s'
  end.

(** Truth value of a string: the empty string is false. *)
Definition truthy (s : string) : bool :=
  match s with EmptyString => false | String _ _ => true end.



End Py.

(** The mathematical notion the claims speak of: [sub] is a substring of
    [s] when [s] is [pre ++ sub ++ post]. *)
Definition substring_of (sub s : string) : Prop :=
  ∃ pre post : string, s = pre +:+ sub +:+ post.

(** ** Records *)

(** A three-element list [[title, author, genre]]. *)
Record Book := mkBook {
  title : string;
  author : string;
  genre : string
}.

(** A four-element list [[title, author, genre, description]]. *)
Record DescribedBook := mkDescribedBook {
  d_title : string;       (* book[0] *)
  d_author : string;      (* book[1] *)
  d_genre : string;       (* book[2] *)
  d_description : string  (* book[3] *)
}.

(** [book[:3]] *)
Definition first3 (book : DescribedBook) : Book :=
  mkBook (d_title book) (d_author book) (d_genre book).

Global Instance Book_eq_dec : EqDecision Book.
Proof. solve_decision. Defined.

Global Instance DescribedBook_eq_dec : EqDecision DescribedBook.
Proof. solve_decision. Defined.

(** U+00EB, LATIN SMALL LETTER E WITH DIAERESIS *)
Definition e_diaeresis : string := String (ascii_of_N 235) EmptyString.

Definition Charlotte_Bronte : string := "Charlotte Bront" +:+ e_diaeresis.

(** ** The three catalog literals *)

(** [all_books] of [search_books] *)
Definition search_books_all_books : list Book := [
  mkBook "The Great Gatsby" "F. Scott Fitzgerald" "Classic Literature";
  mkBook "1984" "George Orwell" "Dystopian Fiction";
  mkBook "Pride and Prejudice" "Jane Austen" "Romance";
  mkBook "The Hobbit" "J.R.R. Tolkien" "Fantasy";
  mkBook "Dune" "Frank Herbert" "Science Fiction";
  mkBook "To Kill a Mockingbird" "Harper Lee" "Classic Literature";
  mkBook "The Catcher in the Rye" "J.D. Salinger" "Classic Literature";
  mkBook "The Lord of the Rings" "J.R.R. Tolkien" "Fantasy";
  mkBook "Brave New World" "Aldous Huxley" "Dystopian Fiction";
  mkBook "Jane Eyre" Charlotte_Bronte "Gothic Fiction";
  mkBook "The Chronicles of Narnia" "C.S. Lewis" "Fantasy";
  mkBook "Foundation" "Isaac Asimov" "Science Fiction";
  mkBook "Fahrenheit 451" "Ray Bradbury" "Dystopian Fiction";
  mkBook "Little Women" "Louisa May Alcott" "Classic Literature";
  mkBook "The Handmaid's Tale" "Margaret Atwood" "Dystopian Fiction"
].

(** [all_books] of [show_all_books] *)
Definition show_all_books_all_books : list Book := [
  mkBook "The Great Gatsby" "F. Scott Fitzgerald" "Classic Literature";
  mkBook "1984" "George Orwell" "Dystopian Fiction";
  mkBook "Pride and Prejudice" "Jane Austen" "Romance";
  mkBook "The Hobbit" "J.R.R. Tolkien" "Fantasy";
  mkBook "Dune" "Frank Herbert" "Science Fiction";
  mkBook "To Kill a Mockingbird" "Harper Lee" "Classic Literature";
  mkBook "The Catcher in the Rye" "J.D. Salinger" "Classic Literature";
  mkBook "The Lord of the Rings" "J.R.R. Tolkien" "Fantasy";
  mkBook "Brave New World" "Aldous Huxley" "Dystopian Fiction";
  mkBook "Jane Eyre" Charlotte_Bronte "Gothic Fiction";
  mkBook "The Chronicles of Narnia" "C.S. Lewis" "Fantasy";
  mkBook "Foundation" "Isaac Asimov" "Science Fiction";
  mkBook "Fahrenheit 451" "Ray Bradbury" "Dystopian Fiction";
  mkBook "Little Women" "Louisa May Alcott" "Classic Literature";
  mkBook "The Handmaid's Tale" "Margaret Atwood" "Dystopian Fiction"
].

(** [all_books] of [fetch_recommendations] *)
Definition fetch_recommendations_all_books : list DescribedBook := [
  mkDescribedBook "The Great Gatsby" "F. Scott Fitzgerald" "Classic Literature"
    "A novel about the decadence of the Jazz Age.";
  mkDescribedBook "1984" "George Orwell" "Dystopian Fiction"
    "A dark, satirical novel about totalitarian surveillance.";
  mkDescribedBook "Pride and Prejudice" "Jane Austen" "Romance"
    "A witty exploration of love and marriage in early 19th-century England.";
  mkDescribedBook "The Hobbit" "J.R.R. Tolkien" "Fantasy"
    "An epic adventure of a hobbit's journey through Middle-earth.";
  mkDescribedBook "Dune" "Frank Herbert" "Science Fiction"
    "A complex narrative of politics, religion, and ecology on a desert planet.";
  mkDescribedBook "To Kill a Mockingbird" "Harper Lee" "Classic Literature"
    "A powerful story of racial injustice and moral growth.";
  mkDescribedBook "The Catcher in the Rye" "J.D. Salinger" "Classic Literature"
    "A novel about teenage alienation and angst.";
  mkDescribedBook "The Lord of the Rings" "J.R.R. Tolkien" "Fantasy"
    "An epic high-fantasy trilogy about the struggle against evil.";
  mkDescribedBook "Brave New World" "Aldous Huxley" "Dystopian Fiction"
    "A novel exploring a technologically advanced, but emotionally sterile society.";
  mkDescribedBook "Jane Eyre" Charlotte_Bronte "Gothic Fiction"
    "A novel following the emotions and experiences of its eponymous heroine.";
  mkDescribedBook "The Chronicles of Narnia" "C.S. Lewis" "Fantasy"
    "A series of seven fantasy novels about adventures in the magical land of Narnia.";
  mkDescribedBook "Foundation" "Isaac Asimov" "Science Fiction"
    "A science fiction saga about the fall and rebirth of a galactic civilization.";
  mkDescribedBook "Fahrenheit 451" "Ray Bradbury" "Dystopian Fiction"
    "A novel about a future where books are outlawed and burned.";
  mkDescribedBook "Little Women" "Louisa May Alcott" "Classic Literature"
    "A novel about the lives of four sisters during the American Civil War.";
  mkDescribedBook "The Handmaid's Tale" "Margaret Atwood" "Dystopian Fiction"
    "A dystopian novel about women's rights and reproductive freedom."
].

(** ** The widgets *)

(** A row of a three-column [QTableWidget]: per column the text of the
    item set there, if any. *)
Definition Row : Type := list (option string).
Definition Table : Type := list Row.

Module Qt.

Definition columnCount : nat := 3.

(** [table.insertRow(row)]: an empty row at position [row]; a position
    past the end is refused. *)
Definition insertRow (row : nat) (table : Table) : Table :=
  if decide (row ≤ length table)
  then take row table ++ replicate columnCount None :: drop row table
  else table.

(** [table.setItem(row, column, QTableWidgetItem(text))]; nothing happens
    outside the table. *)
Definition setItem (row column : nat) (text : string) (table : Table) : Table :=
  alter (λ r, <[column := Some text]> r) row table.

(** [table.rowCount()] *)
Definition rowCount (table : Table) : nat := length table.

End Qt.

(** The state of [BookSearchApp] the methods work on. *)
Record App := mkApp {
  search_input : string;              (* self.search_input.text() *)
  results_table : Table;
  recommendations_table : Table;
  tab_widget : nat;                   (* self.tab_widget.currentIndex() *)
  book_title_label : string;
  book_author_label : string;
  book_genre_label : string;
  book_description : string
}.

Definition set_results_table (t : Table) (self : App) : App :=
  mkApp (search_input self) t (recommendations_table self) (tab_widget self)
        (book_title_label self) (book_author_label self)
        (book_genre_label self) (book_description self).

Definition set_recommendations_table (t : Table) (self : App) : App :=
  mkApp (search_input self) (results_table self) t (tab_widget self)
        (book_title_label self) (book_author_label self)
        (book_genre_label self) (book_description self).

Definition setCurrentIndex (i : nat) (self : App) : App :=
  mkApp (search_input self) (results_table self) (recommendations_table self) i
        (book_title_label self) (book_author_label self)
        (book_genre_label self) (book_description self).

Definition set_details (t a g d : string) (self : App) : App :=
  mkApp (search_input self) (results_table self) (recommendations_table self)
        (tab_widget self) t a g d.

Definition setText (text : string) (self : App) : App :=
  mkApp text (results_table self) (recommendations_table self) (tab_widget self)
        (book_title_label self) (book_author_label self)
        (book_genre_label self) (book_description self).

(** The elements of a book, as the loops over [enumerate(book)] see them. *)
Definition elements_of (book : Book) : list string :=
  [title book; author book; genre book].

(** [[(0, v0), (1, v1), ...]] *)
Definition enumerate {A} (l : list A) : list (nat * A) := imap pair l.

(** The body shared by the three table-filling loops:
<<
    row_position = table.rowCount()
    table.insertRow(row_position)
    for i, value in enumerate(book):
        table.setItem(row_position, i, QTableWidgetItem(str(value)))
>> *)
Definition append_row (table : Table) (book : list string) : Table :=
  let row_position := Qt.rowCount table in
  let table := Qt.insertRow row_position table in
  foldl (λ table iv, Qt.setItem row_position iv.1 iv.2 table) table (enumerate book).

(** [for book in books: ...] with the body above. *)
Definition populate (table : Table) (books : list (list string)) : Table :=
  foldl append_row table books.

(** ** The methods *)

(** [show_all_books] *)
Definition show_all_books (self : App) : App :=
  let self := set_results_table [] self in              (* setRowCount(0) *)
  let all_books := show_all_books_all_books in
  set_results_table (populate (results_table self) (elements_of <$> all_books)) self.

(** The filter loop of [search_books]:
<<
    matching_books = []
    for book in all_books:
        title, author, genre = book
        if (search_query in title.lower() or search_query in author.lower()
            or search_query in genre.lower()):
            matching_books.append(book)
>> *)
Definition matching_books (search_query : string) (all_books : list Book) : list Book :=
  foldl (λ matching_books book,
           if Py.contains search_query (Py.lower (title book)) ||
              Py.contains search_query (Py.lower (author book)) ||
              Py.contains search_query (Py.lower (genre book))
           then matching_books ++ [book]
           else matching_books)
        [] all_books.

Definition no_results_message : string := "No matching books found".

(** [search_books] *)
Definition search_books (self : App) : App :=
  let search_query := Py.strip (Py.lower (search_input self)) in
  if negb (Py.truthy search_query) then show_all_books self
  else
    let self := set_results_table [] self in            (* setRowCount(0) *)
    let matching := matching_books search_query search_books_all_books in
    let self :=
      set_results_table (populate (results_table self) (elements_of <$> matching)) self in
    if decide (Qt.rowCount (results_table self) = 0) then
      let no_results_row := Qt.rowCount (results_table self) in
      let table := Qt.insertRow no_results_row (results_table self) in
      set_results_table (Qt.setItem no_results_row 1 no_results_message table) self
    else self.

(** [show_default_recommendations]: the table is cleared, nothing is put
    into it. *)
Definition show_default_recommendations (self : App) : App :=
  set_recommendations_table [] self.

(** The comprehension of [fetch_recommendations]:
<<
    [book for book in all_books
     if book[2] == current_genre and book[0] != current_title]
>> *)
Definition genre_recommendations (current_title current_genre : string)
    (all_books : list DescribedBook) : list DescribedBook :=
  filter (λ book, d_genre book = current_genre ∧ d_title book ≠ current_title)
         all_books.

(** [fetch_recommendations] *)
Definition fetch_recommendations (self : App) : App :=
  let current_title := book_title_label self in
  let current_genre := book_genre_label self in
  let self := set_recommendations_table [] self in      (* setRowCount(0) *)
  let genre_recs :=
    genre_recommendations current_title current_genre fetch_recommendations_all_books in
  match genre_recs with
  | [] => show_default_recommendations self
  | _ :: _ =>
      let recommendations := take 5 genre_recs in
      let self :=
        set_recommendations_table
          (populate (recommendations_table self)
                    ((λ book, elements_of (first3 book)) <$> recommendations)) self in
      setCurrentIndex 2 self
  end.

(** The dictionary [descriptions] of [view_book_details]. *)
Definition description_The_Great_Gatsby : string :=
  "Set in the summer of 1922 on Long Island, New York, this timeless story follows the mysterious millionaire Jay Gatsby and his obsession with the beautiful Daisy Buchanan. Considered F. Scott Fitzgerald's magnum opus, The Great Gatsby explores themes of decadence, idealism, social upheaval, and excess, creating a portrait of the Jazz Age that has been described as a cautionary tale regarding the American Dream.".

Definition description_1984 : string :=
  "A dystopian social science fiction novel that follows " +:+
  "Winston Smith, a disillusioned citizen who dreams of rebellion " +:+
  "against the totalitarian government of Oceania. Written in 1949, " +:+
  "Orwell's masterpiece presents a haunting vision of a future " +:+
  "marked by perpetual war, omnipresent surveillance, and the " +:+
  "manipulation of history and language.".

Definition description_Pride_and_Prejudice : string :=
  "A romantic novel following the emotional development of " +:+
  "Elizabeth Bennet, who learns the error of making hasty judgments " +:+
  "and comes to appreciate the difference between superficial goodness " +:+
  "and actual goodness. Set in early 19th-century England, the novel " +:+
  "explores themes of love, marriage, social class, and character.".

Definition description_The_Hobbit : string :=
  "A fantasy novel that follows the quest of home-loving hobbit " +:+
  "Bilbo Baggins to win a share of the treasure guarded by Smaug " +:+
  "the dragon. His journey takes him from light-hearted beginnings " +:+
  "in the Shire to more sinister experiences. A precursor to The " +:+
  "Lord of the Rings, this beloved classic has enchanted readers " +:+
  "for generations.".

Definition description_Dune : string :=
  "Set in the distant future amidst a feudal interstellar society, " +:+
  "Dune tells the story of young Paul Atreides, whose family accepts " +:+
  "stewardship of the planet Arrakis. The only source of the most " +:+
  "valuable substance in the universe, 'the spice', Arrakis is also " +:+
  "one of the most dangerous planets. A stunning blend of adventure " +:+
  "and mysticism, environmentalism and politics.".

Definition descriptions : gmap string string :=
  <["Dune" := description_Dune]>
  (<["The Hobbit" := description_The_Hobbit]>
  (<["Pride and Prejudice" := description_Pride_and_Prejudice]>
  (<["1984" := description_1984]>
  (<["The Great Gatsby" := description_The_Great_Gatsby]> ∅)))).

Definition no_description : string :=
  "No detailed description available for this book.".

(** [descriptions.get(title, "No detailed description available for this book.")] *)
Definition describe (title : string) : string :=
  default no_description (descriptions !! title).

(** [view_book_details].  The two arguments are what the toolkit answers
    to [selectedItems()] on the results table and on the recommendations
    table: the texts of the items of the selected row, in column order.
    [None] is an [IndexError] at [selected_items[1]] or [selected_items[2]]. *)
Definition view_book_details (results_selected recommendations_selected : list string)
    (self : App) : option App :=
  let selected_items :=
    if decide (tab_widget self = 0) then results_selected
    else recommendations_selected in
  match selected_items with
  | [] => Some self
  | title :: _ =>
      author ← selected_items !! 1;
      genre ← selected_items !! 2;
      let description := describe title in
      let self := setCurrentIndex 1 self in
      Some (set_details title author genre description self)
  end.

(** ** The engine, under the names of the specification *)

(** [all()]: the catalog shown when the application starts. *)
Definition all_ : list Book := show_all_books_all_books.

(** [search(query)]: the books [search_books] puts into the results table
    when the line edit holds [query]. *)
Definition search (query : string) : list Book :=
  let search_query := Py.strip (Py.lower query) in
  if negb (Py.truthy search_query) then show_all_books_all_books
  else matching_books search_query search_books_all_books.

(** [recommend(referenceTitle, referenceGenre)]: the books
    [fetch_recommendations] puts into the recommendations table when the
    detail view shows a book with this title and genre. *)
Definition recommend (current_title current_genre : string) : list DescribedBook :=
  match genre_recommendations current_title current_genre
          fetch_recommendations_all_books with
  | [] => []
  | genre_recs => take 5 genre_recs
  end.

(** The rows a table shows for a list of books. *)
Definition rows_of (books : list Book) : Table :=
  (λ book, Some <$> elements_of book) <$> books.

Definition no_results_row : Row := [None; Some no_results_message; None].

(** ** The remaining methods and the wiring of the widgets *)

(** [return_to_book_search] *)
Definition return_to_book_search (self : App) : App := setCurrentIndex 0 self.

(** [return_to_book_details] *)
Definition return_to_book_details (self : App) : App := setCurrentIndex 1 self.

(** [display_book_details]: the four texts are set, then the tab. *)
Definition display_book_details (title author genre description : string)
    (self : App) : App :=
  let self := set_details title author genre description self in
  setCurrentIndex 1 self.

(** [show_selected_book_details] and [show_selected_search_book_details]
    only call [view_book_details]. *)
Definition show_selected_book_details := view_book_details.
Definition show_selected_search_book_details := view_book_details.

(** [handle_tab_change]: the body is commented out. *)
Definition handle_tab_change (index : nat) (self : App) : App := self.

(** The text of [book_title_label] set by [setup_book_details_tab]. *)
Definition select_a_book : string := "Select a book to view details".

(** [__init__]: the three [setup_..._tab] methods leave an empty line
    edit, two empty tables, the first tab current and the labels of
    [setup_book_details_tab]; then [show_all_books] is called. *)
Definition init : App :=
  let self := mkApp EmptyString [] [] 0 select_a_book EmptyString EmptyString EmptyString in
  show_all_books self.

(** What the user can do, by the [connect] calls of the [setup_..._tab]
    methods. *)
Inductive Event :=
  | textChanged (text : string)
      (* search_input.textChanged: the line edit now holds [text] *)
  | search_clicked
      (* search_button.clicked *)
  | view_details (results_selected recommendations_selected : list string)
      (* view_details_button.clicked, see_details_button.clicked and
         itemDoubleClicked of either table; the arguments are the answers
         of [selectedItems()] *)
  | get_recommendations
      (* get_recommendations_button.clicked *)
  | back_to_search
      (* back_to_search_button.clicked, on either tab *)
  | tab_clicked (index : nat).
      (* the user selects a tab of the tab widget *)

(** The slot run for an event; [None] is an exception raised in it. *)
Definition handle (e : Event) (self : App) : option App :=
  match e with
  | textChanged text => Some (search_books (setText text self))
  | search_clicked => Some (search_books self)
  | view_details results_selected recommendations_selected =>
      view_book_details results_selected recommendations_selected self
  | get_recommendations => Some (fetch_recommendations self)
  | back_to_search => Some (return_to_book_search self)
  | tab_clicked index => Some (setCurrentIndex index self)
  end.

(** The texts of the items of a row, in column order. *)
Definition items_of (row : Row) : list string := omap id row.

(** What [selectedItems()] may answer for a table set to select single
    rows ([SelectRows], [SingleSelection]): nothing, or items of one row
    of the table, in column order. *)
Definition selection_of (table : Table) (selected_items : list string) : Prop :=
  selected_items = [] ∨
  ∃ row, row ∈ table ∧ selected_items `sublist_of` items_of row.

(** The events the widgets can deliver in a state. *)
Definition enabled (e : Event) (self : App) : Prop :=
  match e with
  | view_details results_selected recommendations_selected =>
      selection_of (results_table self) results_selected ∧
      selection_of (recommendations_table self) recommendations_selected
  | tab_clicked index => index < 3
  | _ => True
  end.

(** The states the application can be in. *)
Inductive reachable : App → Prop :=
  | reachable_init : reachable init
  | reachable_step self e self' :
      reachable self → enabled e self → handle e self = Some self' →
      reachable self'.

(** The query [search_books] works with. *)
Definition normalized (query : string) : string := Py.strip (Py.lower query).

(** What the results table shows for a list of books. *)
Definition shown (books : list Book) : Table :=
  match books with
  | [] => [no_results_row]
  | _ :: _ => rows_of books
  end.

(** The other books of the genre of a book titled [t] of genre [g]. *)
Definition same_genre_others (t g : string) (book : Book) : Prop :=
  genre book = g ∧ title book ≠ t.

(** What holds in every state the application can be in. *)
Record Inv (self : App) : Prop := mkInv {
  inv_results :
    results_table self = shown (search (search_input self));
  inv_recommendations :
    ∃ books g, books `sublist_of` all_ ∧
               Forall (λ book, genre book = g) books ∧
               length books ≤ 4 ∧
               recommendations_table self = rows_of books;
  inv_tab : tab_widget self < 3;
  inv_details :
    (book_title_label self = select_a_book ∧
     book_author_label self = EmptyString ∧
     book_genre_label self = EmptyString ∧
     book_description self = EmptyString) ∨
    (mkBook (book_title_label self) (book_author_label self)
            (book_genre_label self) ∈ all_ ∧
     book_description self = describe (book_title_label self))
}.

(** The predicates of the claims, executable. *)

(** Every character of [s] is white space ([s] may be empty). *)
Fixpoint whitespace_only (s : string) : bool :=
  match s with
  | EmptyString => true
  | String c s' => Py.isspace c && whitespace_only s'
  end.






(** The condition of the filter loop, for one book. *)
Definition matches (search_query : string) (book : Book) : bool :=
  Py.contains search_query (Py.lower (title book)) ||
  Py.contains search_query (Py.lower (author book)) ||
  Py.contains search_query (Py.lower (genre book)).

(** The condition of the comprehension, for one book. *)
Definition qualifies (current_title current_genre : string) (book : DescribedBook) : Prop :=
  d_genre book = current_genre ∧ d_title book ≠ current_title.

(** The titles that are keys of [descriptions]. *)
Definition described_titles : list string :=
  ["The Great Gatsby"; "1984"; "Pride and Prejudice"; "The Hobbit"; "Dune"].

(** ** Characters and strings *)

Section strings.

Local Ltac by_cases_on c :=
  destruct c as [[] [] [] [] [] [] [] []]; vm_compute; try reflexivity; try discriminate.


Lemma isspace_lower_char c : Py.isspace (Py.lower_char c) = Py.isspace c.
Proof. by_cases_on c. Qed.





Lemma lower_app s s' : Py.lower (s +:+ s') = Py.lower s +:+ Py.lower s'.
Proof. induction s as [|c s IH]; simpl; [done|]. by rewrite IH. Qed.



Lemma lstrip_lower s : Py.lstrip (Py.lower s) = Py.lower (Py.lstrip s).
Proof.
  induction s as [|c s IH]; simpl; [done|].
  rewrite isspace_lower_char. by destruct (Py.isspace c).
Qed.

Lemma rstrip_lower s : Py.rstrip (Py.lower s) = Py.lower (Py.rstrip s).
Proof.
  induction s as [|c s IH]; simpl; [done|].
  rewrite IH, isspace_lower_char.
  destruct (Py.rstrip s); simpl; [|done]. by destruct (Py.isspace c).
Qed.

(** Trimming and lower-casing commute: the code lower-cases first. *)
Lemma strip_lower s : Py.strip (Py.lower s) = Py.lower (Py.strip s).
Proof. unfold Py.strip. by rewrite lstrip_lower, rstrip_lower. Qed.

Lemma lower_empty s : Py.lower s = EmptyString ↔ s = EmptyString.
Proof. by destruct s. Qed.


Lemma rstrip_empty s : Py.rstrip s = EmptyString ↔ whitespace_only s = true.
Proof.
  induction s as [|c s IH]; simpl; [done|].
  destruct (Py.rstrip s) eqn:Hr, (Py.isspace c) eqn:Hc; simpl; try done.
  split; [done|]. intros Hs%IH. done.
Qed.

Lemma lstrip_empty s : Py.lstrip s = EmptyString ↔ whitespace_only s = true.
Proof.
  induction s as [|c s IH]; simpl; [done|].
  by destruct (Py.isspace c).
Qed.

(** [s.strip()] is empty exactly when [s] holds white space only. *)
Lemma strip_empty s : Py.strip s = EmptyString ↔ whitespace_only s = true.
Proof.
  unfold Py.strip. rewrite rstrip_empty.
  induction s as [|c s IH]; simpl; [done|].
  destruct (Py.isspace c) eqn:Hc; simpl; [done|]. by rewrite Hc.
Qed.

Lemma truthy_false s : Py.truthy s = false ↔ s = EmptyString.
Proof. by destruct s. Qed.

Lemma startswith_spec p s :
  Py.startswith p s = true ↔ ∃ post, s = p +:+ post.
Proof.
  revert s. induction p as [|a p IH]; intros s; simpl.
  - split; [intros _; by exists s|done].
  - destruct s as [|b s]; [split; [done|by intros [? ?]]|].
    rewrite andb_true_iff, bool_decide_eq_true, IH. split.
    + intros [-> [post ->]]. by exists post.
    + intros [post [= -> ->]]. eauto.
Qed.

(** Python's [in] on strings decides the substring relation. *)
Lemma contains_spec sub s :
  Py.contains sub s = true ↔ substring_of sub s.
Proof.
  unfold substring_of. induction s as [|c s IH].
  - simpl. rewrite orb_false_r, startswith_spec. split.
    + intros [post Hp]. by exists EmptyString, post.
    + intros ([|? pre] & post & Hs); [by exists post|done].
  - cbn [Py.contains]. rewrite orb_true_iff, startswith_spec, IH. split.
    + intros [[post Hp]|(pre & post & ->)].
      * by exists EmptyString, post.
      * by exists (String c pre), post.
    + intros ([|a pre] & post & Hs).
      * left. by exists post.
      * right. injection Hs as -> ->. by exists pre, post.
Qed.

End strings.

(** ** The loops *)

Section loops.

(** The append loop of [search_books] is a filter. *)
Lemma matching_books_filter q all_books :
  matching_books q all_books = filter (λ book, matches q book) all_books.
Proof.
  unfold matching_books.
  enough (∀ acc,
    foldl (λ acc book, if matches q book then acc ++ [book] else acc) acc all_books
    = acc ++ filter (λ book, matches q book) all_books) as H by apply (H []).
  induction all_books as [|book l IH]; intros acc; simpl.
  - by rewrite app_nil_r.
  - rewrite IH, filter_cons. destruct (matches q book); simpl.
    + by rewrite <-app_assoc.
    + done.
Qed.

Lemma insertRow_end (table : Table) :
  Qt.insertRow (length table) table = table ++ [replicate Qt.columnCount None].
Proof.
  unfold Qt.insertRow. rewrite decide_True by done.
  by rewrite firstn_all, drop_all.
Qed.

Lemma setItem_last (table : Table) (row : Row) (column : nat) (text : string) :
  Qt.setItem (length table) column text (table ++ [row])
  = table ++ [<[column := Some text]> row].
Proof.
  unfold Qt.setItem. induction table as [|r table IH]; simpl; [done|].
  by f_equal.
Qed.

(** One pass of the row-filling body adds the book as the last row. *)
Lemma append_row_book (table : Table) (book : Book) :
  append_row table (elements_of book) = table ++ [Some <$> elements_of book].
Proof.
  unfold append_row, Qt.rowCount. rewrite insertRow_end.
  unfold enumerate, elements_of. cbn [imap foldl fst snd].
  by rewrite !setItem_last.
Qed.

Lemma populate_rows (table : Table) (books : list Book) :
  populate table (elements_of <$> books) = table ++ rows_of books.
Proof.
  unfold populate, rows_of. revert table.
  induction books as [|book l IH]; intros table; simpl.
  - by rewrite app_nil_r.
  - rewrite append_row_book, IH, <-app_assoc. done.
Qed.

(** What [show_all_books] leaves in the results table. *)
Lemma show_all_books_table (self : App) :
  results_table (show_all_books self) = rows_of all_.
Proof.
  unfold show_all_books. cbv zeta. cbn [results_table set_results_table].
  by rewrite (populate_rows []).
Qed.

(** What [search_books] leaves in the results table: the books of
    [search], or the one-row message when there are none. *)
Lemma search_books_table (self : App) :
  results_table (search_books self) =
    match search (search_input self) with
    | [] => [no_results_row]
    | books => rows_of books
    end.
Proof.
  unfold search_books, search.
  destruct (Py.truthy (Py.strip (Py.lower (search_input self)))); cbn [negb].
  - generalize (matching_books (Py.strip (Py.lower (search_input self)))
                               search_books_all_books).
    intros books. cbv zeta. cbn [results_table set_results_table].
    rewrite (populate_rows []). by destruct books.
  - apply show_all_books_table.
Qed.

(** What [fetch_recommendations] leaves in the recommendations table. *)
Lemma fetch_recommendations_table (self : App) :
  recommendations_table (fetch_recommendations self) =
    rows_of (first3 <$> recommend (book_title_label self) (book_genre_label self)).
Proof.
  unfold fetch_recommendations, recommend. cbv zeta.
  cbn [book_title_label book_genre_label set_recommendations_table].
  generalize (genre_recommendations (book_title_label self) (book_genre_label self)
                                    fetch_recommendations_all_books).
  intros [|book l]; [done|].
  cbn [recommendations_table setCurrentIndex set_recommendations_table].
  rewrite (list_fmap_compose first3 elements_of).
  by rewrite (populate_rows []).
Qed.

Lemma recommend_take t g :
  recommend t g = take 5 (filter (qualifies t g) fetch_recommendations_all_books).
Proof.
  unfold recommend, genre_recommendations, qualifies.
  by destruct (filter _ _).
Qed.

Lemma catalogs_agree :
  search_books_all_books = show_all_books_all_books ∧
  first3 <$> fetch_recommendations_all_books = show_all_books_all_books.
Proof. split; reflexivity. Qed.

Lemma all_NoDup : NoDup all_.
Proof. apply (bool_decide_unpack _). by vm_compute. Qed.

Lemma search_cases q :
  (Py.strip (Py.lower q) = EmptyString ∧ search q = all_) ∨
  (Py.strip (Py.lower q) ≠ EmptyString ∧
   search q = filter (λ book, matches (Py.strip (Py.lower q)) book) all_).
Proof.
  unfold search. destruct (Py.truthy _) eqn:E; simpl.
  - right. split; [by destruct (Py.strip _)|].
    by rewrite matching_books_filter.
  - left. by apply truthy_false in E.
Qed.

End loops.

(** ** Search *)

(** C1.  For a query [q] that is not empty after trimming and a record [r]
    of the catalog, [r] is in [search q] exactly when the lower-cased,
    trimmed query is a substring of the lower-cased title, or of the
    lower-cased author, or of the lower-cased genre of [r]. *)
Theorem search_substring_iff (q : string) (r : Book) :
  Py.strip q ≠ EmptyString →
  r ∈ all_ →
  (r ∈ search q ↔
     substring_of (Py.strip (Py.lower q)) (Py.lower (title r)) ∨
     substring_of (Py.strip (Py.lower q)) (Py.lower (author r)) ∨
     substring_of (Py.strip (Py.lower q)) (Py.lower (genre r))).
Proof.
  intros Hq Hr.
  destruct (search_cases q) as [[Hempty _]|[_ ->]].
  - destruct Hq. apply lower_empty. by rewrite <-strip_lower.
  - rewrite list_elem_of_filter. unfold matches.
    rewrite !orb_True, !Is_true_true, !contains_spec. tauto.
Qed.

Lemma search_substring_iff_witness :
  mkBook "The Hobbit" "J.R.R. Tolkien" "Fantasy" ∈ search " Tolkien ".
Proof.
  apply (search_substring_iff " Tolkien " (mkBook "The Hobbit" "J.R.R. Tolkien" "Fantasy")).
  - vm_compute. discriminate.
  - apply (bool_decide_unpack _). vm_compute. reflexivity.
  - right. left. exists "j.r.r. ", EmptyString. vm_compute. reflexivity.
Defined.

(** C3.  For a query [q] that is empty or white space only, [search q] is
    the full catalog [all_], in catalog order, and so is what
    [search_books] leaves in the results table; in particular for the
    empty query. *)
Theorem search_blank_is_all (q : string) (self : App) :
  whitespace_only q = true →
  search q = all_ ∧
  results_table (search_books (setText q self)) = rows_of all_ ∧
  results_table (search_books (setText q self)) = results_table (show_all_books self) ∧
  search EmptyString = all_.
Proof.
  intros Hq.
  assert (search q = all_) as Hs.
  { destruct (search_cases q) as [[_ ?]|[Hne _]]; [done|].
    destruct Hne. rewrite strip_lower. apply lower_empty. by apply strip_empty. }
  split; [done|]. split; [|split].
  - rewrite search_books_table. cbn [search_input setText]. by rewrite Hs.
  - rewrite search_books_table, show_all_books_table.
    cbn [search_input setText]. by rewrite Hs.
  - reflexivity.
Qed.

Lemma search_blank_is_all_witness :
  search "   " = all_.
Proof.
  apply (search_blank_is_all "   " (mkApp "" [] [] 0 "" "" "" "")).
  vm_compute. reflexivity.
Defined.

(** C5.  For every query [q], [search q] is a subsequence of [all_]: its
    records occur in the catalog, in catalog order, none of them twice. *)
Theorem search_subsequence (q : string) :
  search q `sublist_of` all_ ∧
  Forall (λ r, r ∈ all_) (search q) ∧
  NoDup (search q).
Proof.
  assert (search q `sublist_of` all_) as Hsub.
  { destruct (search_cases q) as [[_ ->]|[_ ->]]; [done|]. apply sublist_filter. }
  split; [done|]. split.
  - apply Forall_forall. intros r Hr.
    by apply (elem_of_sublist (search q)).
  - eapply sublist_NoDup; [apply all_NoDup|done].
Qed.




(** ** Recommendations *)

Section recommendations.

Context {A : Type} (P : A → Prop) `{!∀ x, Decision (P x)}.

(** Cutting a filtered list after [n] elements is filtering a prefix of
    the list: the scan stops once [n] elements are found, or at the end. *)
Lemma take_filter_prefix (n : nat) (l : list A) :
  ∃ seen rest, l = seen ++ rest ∧ take n (filter P l) = filter P seen ∧
               (length (filter P seen) = n ∨ rest = []).
Proof.
  revert n. induction l as [|x l IH]; intros n.
  - exists [], []. rewrite filter_nil, take_nil. auto.
  - destruct n as [|n].
    + exists [], (x :: l). auto.
    + rewrite filter_cons. destruct (decide (P x)) as [Hx|Hx].
      * destruct (IH n) as (seen & rest & -> & Htake & Hstop).
        exists (x :: seen), rest. rewrite filter_cons, decide_True by done.
        cbn [take length]. rewrite Htake. split; [done|]. split; [done|].
        destruct Hstop; auto.
      * destruct (IH (S n)) as (seen & rest & -> & Htake & Hstop).
        exists (x :: seen), rest. rewrite filter_cons, decide_False by done.
        auto.
Qed.

Lemma filter_none (l : list A) : Forall (λ x, ¬ P x) l → filter P l = [].
Proof.
  induction 1 as [|x l Hx _ IH]; [done|].
  by rewrite filter_cons, decide_False.
Qed.

End recommendations.

(** C2.  Every record of [recommend t g] has genre [g] and a title other
    than [t]; there are at most 5 of them; and they are the first
    qualifying records in catalog order: the qualifying records of an
    initial part of the catalog, which is the whole catalog unless 5 were
    found.  These are the rows [fetch_recommendations] shows. *)
Theorem recommend_first_qualifying (t g : string) :
  Forall (λ book, d_genre book = g) (recommend t g) ∧
  Forall (λ book, d_title book ≠ t) (recommend t g) ∧
  length (recommend t g) ≤ 5 ∧
  recommend t g `sublist_of` fetch_recommendations_all_books ∧
  recommend t g = take 5 (filter (qualifies t g) fetch_recommendations_all_books) ∧
  (∃ seen rest,
      fetch_recommendations_all_books = seen ++ rest ∧
      recommend t g = filter (qualifies t g) seen ∧
      (length (recommend t g) = 5 ∨ rest = [])) ∧
  (∀ a d self,
      recommendations_table (fetch_recommendations (set_details t a g d self))
      = rows_of (first3 <$> recommend t g)).
Proof.
  rewrite recommend_take.
  assert (Forall (qualifies t g)
            (take 5 (filter (qualifies t g) fetch_recommendations_all_books))) as Hq.
  { apply Forall_take, Forall_forall. by intros book [? _]%list_elem_of_filter. }
  repeat split.
  - eapply Forall_impl; [exact Hq|]. by intros book [? ?].
  - eapply Forall_impl; [exact Hq|]. by intros book [? ?].
  - rewrite length_take. lia.
  - etrans; [apply sublist_take|apply sublist_filter].
  - destruct (take_filter_prefix (qualifies t g) 5 fetch_recommendations_all_books)
      as (seen & rest & Hsplit & Htake & Hstop).
    exists seen, rest. rewrite Htake. auto.
  - intros a d self. rewrite fetch_recommendations_table.
    cbn [book_title_label book_genre_label set_details].
    by rewrite recommend_take.
Qed.

(** C7.  When no record of the catalog qualifies for [t] and [g],
    [recommend t g] is empty: [fetch_recommendations] takes the path of
    [show_default_recommendations], which clears the table and puts
    nothing into it. *)
Theorem recommend_none_qualifies (t g : string) :
  Forall (λ book, ¬ qualifies t g book) fetch_recommendations_all_books →
  recommend t g = [] ∧
  ∀ a d self,
    fetch_recommendations (set_details t a g d self)
    = show_default_recommendations (set_details t a g d self) ∧
    recommendations_table (fetch_recommendations (set_details t a g d self)) = [].
Proof.
  intros Hnone.
  pose proof (filter_none (qualifies t g) _ Hnone) as Hfilter.
  split; [by rewrite recommend_take, Hfilter|].
  intros a d self. unfold fetch_recommendations. cbv zeta.
  cbn [book_title_label book_genre_label set_details set_recommendations_table].
  unfold genre_recommendations. fold (qualifies t g).
  change (λ book : DescribedBook, d_genre book = g ∧ d_title book ≠ t)
    with (qualifies t g).
  by rewrite Hfilter.
Qed.

Lemma recommend_none_qualifies_witness :
  recommend "Pride and Prejudice" "Romance" = [].
Proof.
  apply (recommend_none_qualifies "Pride and Prejudice" "Romance").
  apply (bool_decide_unpack _). vm_compute. reflexivity.
Defined.

(** C8.  On the embedded catalog, [recommend "Dune" "Science Fiction"] is
    the one-element list holding the record titled "Foundation", and this
    is the one row [fetch_recommendations] shows. *)
Theorem recommend_Dune :
  recommend "Dune" "Science Fiction" =
    [mkDescribedBook "Foundation" "Isaac Asimov" "Science Fiction"
       "A science fiction saga about the fall and rebirth of a galactic civilization."] ∧
  d_title <$> recommend "Dune" "Science Fiction" = ["Foundation"] ∧
  ∀ a d self,
    recommendations_table
      (fetch_recommendations (set_details "Dune" a "Science Fiction" d self))
    = [[Some "Foundation"; Some "Isaac Asimov"; Some "Science Fiction"]].
Proof.
  split; [by vm_compute|]. split; [by vm_compute|].
  intros a d self. rewrite fetch_recommendations_table.
  cbn [book_title_label book_genre_label set_details]. by vm_compute.
Qed.

(** C9.  The three catalog literals agree: the one of [search_books] and
    the one of [show_all_books] are the same list of 15 books, and the
    one of [fetch_recommendations] lists the same 15 (title, author,
    genre) triples in the same order, with a description added. *)
Theorem catalog_literals_agree :
  search_books_all_books = show_all_books_all_books ∧
  first3 <$> fetch_recommendations_all_books = search_books_all_books ∧
  first3 <$> fetch_recommendations_all_books = show_all_books_all_books ∧
  length search_books_all_books = 15 ∧
  length show_all_books_all_books = 15 ∧
  length fetch_recommendations_all_books = 15.
Proof. repeat split; reflexivity. Qed.

(** ** Descriptions *)

Lemma describe_cases (t : string) :
  describe t =
    if decide (t = "The Great Gatsby") then description_The_Great_Gatsby
    else if decide (t = "1984") then description_1984
    else if decide (t = "Pride and Prejudice") then description_Pride_and_Prejudice
    else if decide (t = "The Hobbit") then description_The_Hobbit
    else if decide (t = "Dune") then description_Dune
    else no_description.
Proof.
  unfold describe, descriptions.
  repeat (destruct (decide (t = _)) as [->|?]; [by vm_compute|]).
  by rewrite !lookup_insert_ne, lookup_empty by done.
Qed.

Lemma describe_not_described (t : string) :
  t ∉ described_titles → describe t = no_description.
Proof.
  intros Ht. rewrite describe_cases.
  repeat (destruct (decide (t = _)) as [->|?];
          [destruct Ht; unfold described_titles; set_solver|]).
  done.
Qed.

(** C4.  [describe t] is the stored description when [t] is, exactly and
    with the same letter case, one of the titles that have one, and the
    fixed placeholder for every other [t]; so it has a value for every
    [t].  In particular for "1984" and for "Unknown Title"; and
    [view_book_details] shows this value for a selected row. *)
Theorem describe_exact_or_placeholder (t : string) :
  describe t =
    (if decide (t = "The Great Gatsby") then description_The_Great_Gatsby
     else if decide (t = "1984") then description_1984
     else if decide (t = "Pride and Prejudice") then description_Pride_and_Prejudice
     else if decide (t = "The Hobbit") then description_The_Hobbit
     else if decide (t = "Dune") then description_Dune
     else "No detailed description available for this book.") ∧
  describe "1984" = description_1984 ∧
  describe "Unknown Title" = "No detailed description available for this book." ∧
  describe "dune" = "No detailed description available for this book." ∧
  describe "198" = "No detailed description available for this book." ∧
  describe "1984 " = "No detailed description available for this book." ∧
  ∀ a g self,
    view_book_details [t; a; g] [t; a; g] self
    = Some (set_details t a g (describe t) (setCurrentIndex 1 self)).
Proof.
  split; [apply describe_cases|].
  repeat (split; [by vm_compute|]).
  intros a g self. unfold view_book_details. by destruct (decide _).
Qed.

(** C10.  The keys of [descriptions] are 5 of the 15 catalog titles: "The
    Great Gatsby", "1984", "Pride and Prejudice", "The Hobbit" and "Dune".
    For every other catalog title [describe] gives the placeholder; so it
    does for "Foundation", although the catalog of [fetch_recommendations]
    stores a description that is not empty for it. *)
Theorem describe_only_five :
  dom descriptions = list_to_set described_titles ∧
  length described_titles = 5 ∧
  NoDup described_titles ∧
  described_titles ⊆ title <$> all_ ∧
  length all_ = 15 ∧
  (∀ book, book ∈ all_ → title book ∉ described_titles →
           describe (title book) = "No detailed description available for this book.") ∧
  length (filter (λ book, describe (title book) = no_description) all_) = 10 ∧
  describe "Foundation" = "No detailed description available for this book." ∧
  (∃ book, book ∈ fetch_recommendations_all_books ∧
           d_title book = "Foundation" ∧ d_description book ≠ EmptyString).
Proof.
  split; [apply (bool_decide_unpack _); by vm_compute|].
  split; [done|].
  split; [apply (bool_decide_unpack _); by vm_compute|].
  split; [apply (bool_decide_unpack _); by vm_compute|].
  split; [done|].
  split; [intros book _ Ht; by apply describe_not_described|].
  split; [by vm_compute|].
  split; [by vm_compute|].
  exists (mkDescribedBook "Foundation" "Isaac Asimov" "Science Fiction"
    "A science fiction saga about the fall and rebirth of a galactic civilization.").
  split; [apply (bool_decide_unpack _); by vm_compute|].
  done.
Qed.

Lemma describe_only_five_witness :
  describe "Little Women" = "No detailed description available for this book.".
Proof.
  apply (proj1 (proj2 (proj2 (proj2 (proj2 (proj2 describe_only_five)))))
           (mkBook "Little Women" "Louisa May Alcott" "Classic Literature")).
  - apply (bool_decide_unpack _). vm_compute. reflexivity.
  - apply (bool_decide_unpack _). vm_compute. reflexivity.
Defined.

(** ** More on queries *)

Section queries.

Lemma string_app_cons (x : ascii) (a b : string) :
  String x a +:+ b = String x (a +:+ b).
Proof. reflexivity. Qed.

Lemma string_app_assoc (a b c : string) : (a +:+ b) +:+ c = a +:+ b +:+ c.
Proof.
  induction a as [|x a IH]; [done|]. by rewrite !string_app_cons, IH.
Qed.

Lemma substring_of_trans a b c :
  substring_of a b → substring_of b c → substring_of a c.
Proof.
  intros (p1 & q1 & ->) (p2 & q2 & ->).
  exists (p2 +:+ p1), (q1 +:+ q2). by rewrite !string_app_assoc.
Qed.

Lemma substring_of_lower a b :
  substring_of a b → substring_of (Py.lower a) (Py.lower b).
Proof.
  intros (p & q & ->). exists (Py.lower p), (Py.lower q).
  by rewrite !lower_app.
Qed.




Lemma rstrip_app_prefix a x :
  ∃ post, Py.rstrip (a +:+ x) = Py.rstrip a +:+ post.
Proof.
  induction a as [|c a [post IH]]; [by exists (Py.rstrip x)|].
  rewrite string_app_cons. cbn [Py.rstrip]. rewrite IH.
  destruct (Py.rstrip a) as [|b r].
  - change (EmptyString +:+ post) with post.
    destruct post as [|p post], (Py.isspace c); eauto.
  - rewrite string_app_cons. by exists post.
Qed.

Lemma lstrip_app a x :
  Py.lstrip (a +:+ x) =
    if whitespace_only a then Py.lstrip x else Py.lstrip a +:+ x.
Proof.
  induction a as [|c a IH]; [done|].
  rewrite string_app_cons. cbn [Py.lstrip whitespace_only].
  destruct (Py.isspace c); [done|]. by rewrite string_app_cons.
Qed.

(** The trimmed query is an initial part of the trimmed longer query. *)
Lemma strip_app_prefix q x :
  ∃ post, Py.strip (q +:+ x) = Py.strip q +:+ post.
Proof.
  unfold Py.strip. rewrite lstrip_app.
  destruct (whitespace_only q) eqn:Hq.
  - apply lstrip_empty in Hq. rewrite Hq. simpl. eauto.
  - apply rstrip_app_prefix.
Qed.



Lemma matches_spec sq book :
  matches sq book = true ↔
    substring_of sq (Py.lower (title book)) ∨
    substring_of sq (Py.lower (author book)) ∨
    substring_of sq (Py.lower (genre book)).
Proof.
  unfold matches. rewrite !orb_true_iff, !contains_spec. tauto.
Qed.

Lemma matches_narrows sq sq' book :
  substring_of sq sq' → matches sq' book = true → matches sq book = true.
Proof.
  rewrite !matches_spec. intros Hsub [H|[H|H]];
    eauto using substring_of_trans.
Qed.

Lemma sublist_filter_impl {A} (P Q : A → Prop)
    `{!∀ x, Decision (P x)} `{!∀ x, Decision (Q x)} (l : list A) :
  (∀ x, P x → Q x) → filter P l `sublist_of` filter Q l.
Proof.
  intros HPQ. induction l as [|x l IH]; [done|].
  rewrite !filter_cons. destruct (decide (P x)) as [HP|HP].
  - rewrite decide_True by auto. by constructor.
  - destruct (decide (Q x)); [by constructor|done].
Qed.

End queries.

(** ** Further properties of the search *)

Lemma search_sublist_all q : search q `sublist_of` all_.
Proof.
  destruct (search_cases q) as [[_ ->]|[_ ->]]; [done|]. apply sublist_filter.
Qed.

Lemma substring_of_empty a : substring_of a EmptyString → a = EmptyString.
Proof. intros ([|? pre] & post & H); [by destruct a|done]. Qed.

Lemma normalized_app_prefix q x :
  substring_of (normalized q) (normalized (q +:+ x)).
Proof.
  unfold normalized. rewrite lower_app.
  destruct (strip_app_prefix (Py.lower q) (Py.lower x)) as [post ->].
  by exists EmptyString, post.
Qed.

Lemma search_narrows_normalized q q' :
  substring_of (normalized q) (normalized q') →
  search q' `sublist_of` search q.
Proof.
  intros Hsub. fold (normalized q) in *.
  destruct (search_cases q) as [[_ ->]|[Hq ->]]; [apply search_sublist_all|].
  destruct (search_cases q') as [[Hq' _]|[_ ->]].
  - destruct Hq. apply substring_of_empty. unfold normalized in Hsub.
    by rewrite Hq' in Hsub.
  - apply sublist_filter_impl. intros book.
    rewrite !Is_true_true. by apply matches_narrows.
Qed.


(** X2.  A more specific query gives fewer results: when the normalized
    query [q] occurs in the normalized query [q'], the result for [q'] is
    a subsequence of the result for [q]. *)
Theorem search_narrows (q q' : string) :
  substring_of (normalized q) (normalized q') →
  search q' `sublist_of` search q.
Proof. apply search_narrows_normalized. Qed.

Lemma search_narrows_witness :
  search "J.R.R. Tolkien" `sublist_of` search " tol".
Proof.
  apply (search_narrows " tol" "J.R.R. Tolkien").
  exists "j.r.r. ", "kien". vm_compute. reflexivity.
Defined.

(** X3.  Typing on narrows the result: for every text [x] added at the end
    of the query, the result is a subsequence of the one before. *)
Theorem search_typing_narrows (q x : string) :
  search (q +:+ x) `sublist_of` search q.
Proof. apply search_narrows_normalized, normalized_app_prefix. Qed.

(** X4.  Every book of the catalog is found by its own title, by its own
    author and by its own genre. *)
Theorem search_finds_own_fields (book : Book) :
  book ∈ all_ →
  book ∈ search (title book) ∧
  book ∈ search (author book) ∧
  book ∈ search (genre book).
Proof.
  revert book. apply Forall_forall.
  apply (bool_decide_unpack _). by vm_compute.
Qed.

Lemma search_finds_own_fields_witness :
  mkBook "Jane Eyre" Charlotte_Bronte "Gothic Fiction" ∈ search Charlotte_Bronte.
Proof.
  apply (search_finds_own_fields (mkBook "Jane Eyre" Charlotte_Bronte "Gothic Fiction")).
  apply (bool_decide_unpack _). vm_compute. reflexivity.
Defined.

(** ** The methods as changes of the window *)

Lemma shown_eq books :
  shown books = match books with [] => [no_results_row] | _ => rows_of books end.
Proof. by destruct books. Qed.

(** [search_books] replaces the results table and nothing else. *)
Lemma search_books_eq (self : App) :
  search_books self
  = set_results_table (shown (search (search_input self))) self.
Proof.
  destruct self as [q rt rct tab t a g d]. unfold search_books, search.
  cbn [search_input]. destruct (Py.truthy (Py.strip (Py.lower q))); cbn [negb].
  - generalize (matching_books (Py.strip (Py.lower q)) search_books_all_books).
    intros books. cbv zeta. cbn [results_table set_results_table].
    rewrite (populate_rows []). by destruct books.
  - unfold show_all_books. cbv zeta. cbn [results_table set_results_table].
    by rewrite (populate_rows []).
Qed.

(** [fetch_recommendations] replaces the recommendations table, and moves
    to the third tab when there is a recommendation. *)
Lemma fetch_recommendations_eq (self : App) :
  fetch_recommendations self =
    let books := first3 <$> recommend (book_title_label self) (book_genre_label self) in
    let self' := set_recommendations_table (rows_of books) self in
    match books with [] => self' | _ :: _ => setCurrentIndex 2 self' end.
Proof.
  destruct self as [q rt rct tab t a g d].
  unfold fetch_recommendations, recommend. cbv zeta.
  cbn [book_title_label book_genre_label set_recommendations_table].
  generalize (genre_recommendations t g fetch_recommendations_all_books).
  intros [|book l]; [done|].
  cbn [recommendations_table setCurrentIndex set_recommendations_table
       search_input results_table tab_widget book_title_label book_author_label
       book_genre_label book_description].
  rewrite (list_fmap_compose first3 elements_of), (populate_rows []).
  reflexivity.
Qed.

Lemma rows_of_length books : length (rows_of books) = length books.
Proof. unfold rows_of. by rewrite length_fmap. Qed.

Lemma rows_of_columns books : Forall (λ row : Row, length row = 3) (rows_of books).
Proof. unfold rows_of. apply Forall_fmap, Forall_forall. by intros. Qed.

(** X5.  After [search_books] the results table is never empty and every
    row has three cells: it holds one row per found book, or, exactly
    when no book is found, the single row with the message in the middle
    cell. *)
Theorem search_books_message_iff (self : App) :
  (results_table (search_books self) = [no_results_row]
   ↔ search (search_input self) = []) ∧
  results_table (search_books self) ≠ [] ∧
  Forall (λ row : Row, length row = 3) (results_table (search_books self)) ∧
  length (results_table (search_books self))
  = Nat.max 1 (length (search (search_input self))) ∧
  (search (search_input self) ≠ [] →
   results_table (search_books self) = rows_of (search (search_input self))).
Proof.
  rewrite search_books_table.
  destruct (search (search_input self)) as [|book books] eqn:E.
  - repeat split; try done. repeat constructor.
  - repeat split; try done.
    + apply (rows_of_columns (book :: books)).
    + rewrite rows_of_length. simpl. lia.
Qed.

Lemma search_books_message_iff_witness :
  results_table (search_books (mkApp "hobbit" [] [] 0 "" "" "" ""))
  = rows_of (search "hobbit").
Proof.
  apply (proj2 (proj2 (proj2 (proj2
    (search_books_message_iff (mkApp "hobbit" [] [] 0 "" "" "" "")))))).
  vm_compute. discriminate.
Defined.

(** X6.  [search_books] touches the results table only, and running it
    again changes nothing: what the table held before does not show in
    the result. *)
Theorem search_books_idempotent (self : App) (table : Table) :
  search_books (search_books self) = search_books self ∧
  search_books (set_results_table table self) = search_books self ∧
  search_input (search_books self) = search_input self ∧
  recommendations_table (search_books self) = recommendations_table self ∧
  tab_widget (search_books self) = tab_widget self ∧
  book_title_label (search_books self) = book_title_label self ∧
  book_author_label (search_books self) = book_author_label self ∧
  book_genre_label (search_books self) = book_genre_label self ∧
  book_description (search_books self) = book_description self.
Proof.
  rewrite !search_books_eq. by destruct self.
Qed.

(** X7.  [fetch_recommendations] moves to the Recommendations tab exactly
    when there is a recommendation; when there is none the tab stays where
    it was.  The line edit, the results table and the detail view are
    untouched, and what the recommendations table held before does not
    show in the result. *)
Theorem fetch_recommendations_tab (self : App) (table : Table) :
  tab_widget (fetch_recommendations self)
  = (if decide (recommend (book_title_label self) (book_genre_label self) = [])
     then tab_widget self else 2) ∧
  fetch_recommendations (set_recommendations_table table self)
  = fetch_recommendations self ∧
  search_input (fetch_recommendations self) = search_input self ∧
  results_table (fetch_recommendations self) = results_table self ∧
  book_title_label (fetch_recommendations self) = book_title_label self ∧
  book_author_label (fetch_recommendations self) = book_author_label self ∧
  book_genre_label (fetch_recommendations self) = book_genre_label self ∧
  book_description (fetch_recommendations self) = book_description self.
Proof.
  rewrite !fetch_recommendations_eq. destruct self as [q rt rct tab t a g d].
  cbv zeta. cbn [book_title_label book_genre_label set_recommendations_table].
  destruct (recommend t g) as [|book l]; [done|].
  rewrite decide_False by done. done.
Qed.

(** ** Further properties of the recommendations *)

Lemma filter_fmap_comm {A B} (f : A → B) (P : B → Prop) (Q : A → Prop)
    `{!∀ x, Decision (P x)} `{!∀ x, Decision (Q x)} (l : list A) :
  (∀ x, Q x ↔ P (f x)) → filter P (f <$> l) = f <$> filter Q l.
Proof.
  intros HPQ. induction l as [|x l IH]; [done|].
  rewrite fmap_cons, !filter_cons.
  destruct (decide (Q x)) as [HQ|HQ].
  - rewrite decide_True by by apply HPQ. by rewrite fmap_cons, IH.
  - rewrite decide_False by by rewrite <-HPQ. done.
Qed.

(** No genre has more than four books. *)
Lemma genre_at_most_4 (g : string) :
  length (filter (λ book, d_genre book = g) fetch_recommendations_all_books) ≤ 4.
Proof.
  destruct (decide (g = "Classic Literature")) as [->|?]; [by vm_compute|].
  destruct (decide (g = "Dystopian Fiction")) as [->|?]; [by vm_compute|].
  destruct (decide (g = "Fantasy")) as [->|?]; [vm_compute; lia|].
  destruct (decide (g = "Science Fiction")) as [->|?]; [vm_compute; lia|].
  destruct (decide (g = "Romance")) as [->|?]; [vm_compute; lia|].
  destruct (decide (g = "Gothic Fiction")) as [->|?]; [vm_compute; lia|].
  rewrite filter_none; [simpl; lia|].
  unfold fetch_recommendations_all_books.
  repeat (constructor; [cbn [d_genre]; congruence|]). constructor.
Qed.

Lemma qualifying_at_most_4 (t g : string) :
  length (filter (qualifies t g) fetch_recommendations_all_books) ≤ 4.
Proof.
  etrans; [|apply (genre_at_most_4 g)].
  apply sublist_length, sublist_filter_impl. by intros book [? _].
Qed.

Lemma recommend_all_qualifying (t g : string) :
  recommend t g = filter (qualifies t g) fetch_recommendations_all_books.
Proof.
  rewrite recommend_take. apply take_ge.
  pose proof (qualifying_at_most_4 t g). lia.
Qed.

Lemma recommend_same_genre_others (t g : string) :
  first3 <$> recommend t g = filter (same_genre_others t g) all_.
Proof.
  rewrite recommend_all_qualifying.
  change all_ with (first3 <$> fetch_recommendations_all_books).
  symmetry. by apply filter_fmap_comm.
Qed.

(** X8.  On the embedded catalog the limit of 5 never cuts a result: for
    every reference title and genre the recommendations are all
    qualifying records, at most 4, and the table shows every other book of
    the genre. *)
Theorem recommend_never_truncated (t g : string) :
  recommend t g = filter (qualifies t g) fetch_recommendations_all_books ∧
  length (recommend t g) ≤ 4 ∧
  first3 <$> recommend t g = filter (same_genre_others t g) all_ ∧
  ∀ a d self,
    recommendations_table (fetch_recommendations (set_details t a g d self))
    = rows_of (filter (same_genre_others t g) all_).
Proof.
  split; [apply recommend_all_qualifying|].
  split; [rewrite recommend_all_qualifying; apply qualifying_at_most_4|].
  split; [apply recommend_same_genre_others|].
  intros a d self. rewrite fetch_recommendations_table.
  cbn [book_title_label book_genre_label set_details].
  by rewrite recommend_same_genre_others.
Qed.

Lemma catalog_titles_NoDup : NoDup (d_title <$> fetch_recommendations_all_books).
Proof. apply (bool_decide_unpack _). by vm_compute. Qed.

(** X9.  Recommendation is symmetric on the catalog: for two books of the
    catalog, the second is recommended for the first exactly when the
    first is recommended for the second. *)
Theorem recommend_symmetric (a b : DescribedBook) :
  a ∈ fetch_recommendations_all_books →
  b ∈ fetch_recommendations_all_books →
  (b ∈ recommend (d_title a) (d_genre a) ↔ a ∈ recommend (d_title b) (d_genre b)).
Proof.
  intros Ha Hb. rewrite !recommend_all_qualifying, !list_elem_of_filter.
  unfold qualifies. intuition congruence.
Qed.

Lemma recommend_symmetric_witness :
  mkDescribedBook "Dune" "Frank Herbert" "Science Fiction"
    "A complex narrative of politics, religion, and ecology on a desert planet."
  ∈ recommend "Foundation" "Science Fiction".
Proof.
  apply (recommend_symmetric
    (mkDescribedBook "Dune" "Frank Herbert" "Science Fiction"
       "A complex narrative of politics, religion, and ecology on a desert planet.")
    (mkDescribedBook "Foundation" "Isaac Asimov" "Science Fiction"
       "A science fiction saga about the fall and rebirth of a galactic civilization.")).
  - apply (bool_decide_unpack _). vm_compute. reflexivity.
  - apply (bool_decide_unpack _). vm_compute. reflexivity.
  - apply (bool_decide_unpack _). vm_compute. reflexivity.
Defined.

(** X10.  A book of the catalog is never among its own recommendations,
    and it is the only book of its genre left out. *)
Theorem recommend_leaves_out_itself (b : DescribedBook) :
  b ∈ fetch_recommendations_all_books →
  (b ∉ recommend (d_title b) (d_genre b)) ∧
  (∀ b', b' ∈ fetch_recommendations_all_books →
         d_genre b' = d_genre b → b' ≠ b →
         b' ∈ recommend (d_title b) (d_genre b)).
Proof.
  intros Hb. rewrite recommend_all_qualifying. split.
  - rewrite list_elem_of_filter. unfold qualifies. intuition congruence.
  - intros b' Hb' Hg Hne. rewrite list_elem_of_filter. unfold qualifies.
    split; [|done]. split; [done|]. intros Ht. destruct Hne.
    pose proof catalog_titles_NoDup as Hnd.
    apply list_elem_of_lookup in Hb as [i Hi], Hb' as [j Hj].
    assert (i = j) as ->; [|congruence].
    eapply NoDup_lookup; [exact Hnd| |].
    + rewrite list_lookup_fmap, Hi. reflexivity.
    + rewrite list_lookup_fmap, Hj. simpl. by rewrite Ht.
Qed.

Lemma recommend_leaves_out_itself_witness :
  mkDescribedBook "The Hobbit" "J.R.R. Tolkien" "Fantasy"
    "An epic adventure of a hobbit's journey through Middle-earth."
  ∉ recommend "The Hobbit" "Fantasy".
Proof.
  apply (recommend_leaves_out_itself
    (mkDescribedBook "The Hobbit" "J.R.R. Tolkien" "Fantasy"
       "An epic adventure of a hobbit's journey through Middle-earth.")).
  apply (bool_decide_unpack _). vm_compute. reflexivity.
Defined.

(** ** Viewing a book *)

Lemma view_book_details_some rs rcs self self' :
  view_book_details rs rcs self = Some self' →
  let selected_items := if decide (tab_widget self = 0) then rs else rcs in
  (selected_items = [] ∧ self' = self) ∨
  ∃ t a g rest,
    selected_items = t :: a :: g :: rest ∧
    self' = set_details t a g (describe t) (setCurrentIndex 1 self).
Proof.
  unfold view_book_details. cbv zeta.
  destruct (if decide (tab_widget self = 0) then rs else rcs)
    as [|t [|a [|g rest]]]; cbn; intros H; simplify_eq.
  - by left.
  - right. by exists t, a, g, rest.
Qed.

(** X11.  [view_book_details] works on the selection of the results table
    on the first tab and on that of the recommendations table on the other
    tabs.  With nothing selected it does nothing; with one or two selected
    items, and only then, it fails with an [IndexError]; with three or
    more it shows the first three as title, author and genre, with the
    description of the title, on the Book Details tab. *)
Theorem view_book_details_cases (rs rcs : list string) (self : App) :
  let selected_items := if decide (tab_widget self = 0) then rs else rcs in
  (view_book_details rs rcs self = None
   ↔ length selected_items = 1 ∨ length selected_items = 2) ∧
  (selected_items = [] → view_book_details rs rcs self = Some self) ∧
  (∀ t a g rest, selected_items = t :: a :: g :: rest →
     view_book_details rs rcs self
     = Some (set_details t a g (describe t) (setCurrentIndex 1 self))).
Proof.
  unfold view_book_details. cbv zeta.
  destruct (if decide (tab_widget self = 0) then rs else rcs)
    as [|t [|a [|g rest]]]; cbn; repeat split; try done;
    try (intros [?|?]; simplify_eq/=; lia); try (intros; simplify_eq; done);
    auto.
Qed.

Lemma view_book_details_cases_witness :
  view_book_details [] ["Dune"; "Frank Herbert"; "Science Fiction"]
    (mkApp "" [] [] 2 "" "" "" "")
  = Some (set_details "Dune" "Frank Herbert" "Science Fiction" (describe "Dune")
            (setCurrentIndex 1 (mkApp "" [] [] 2 "" "" "" ""))).
Proof.
  apply (proj2 (proj2 (view_book_details_cases []
           ["Dune"; "Frank Herbert"; "Science Fiction"]
           (mkApp "" [] [] 2 "" "" "" ""))) "Dune" "Frank Herbert" "Science Fiction" []).
  reflexivity.
Defined.

Lemma rows_of_title_not_in t (books : list Book) :
  Forall (λ book, title book ≠ t) books →
  Forall (λ row : Row, row !! 0 ≠ Some (Some t)) (rows_of books).
Proof.
  intros H. unfold rows_of. apply Forall_fmap.
  eapply Forall_impl; [exact H|]. intros book Hne. cbn. congruence.
Qed.

(** X12.  Viewing a row and then asking for recommendations lists exactly
    the other books of the catalog with the genre of the viewed row; the
    viewed title is in no row of the list; the window moves to the
    Recommendations tab unless the list is empty, and then it stays on
    Book Details. *)
Theorem view_then_fetch_recommendations (t a g : string) (self : App) :
  ∃ self',
    view_book_details [t; a; g] [t; a; g] self = Some self' ∧
    recommendations_table (fetch_recommendations self')
    = rows_of (filter (same_genre_others t g) all_) ∧
    Forall (λ row : Row, row !! 0 ≠ Some (Some t))
           (recommendations_table (fetch_recommendations self')) ∧
    tab_widget (fetch_recommendations self')
    = (if decide (filter (same_genre_others t g) all_ = []) then 1 else 2) ∧
    book_title_label (fetch_recommendations self') = t ∧
    book_description (fetch_recommendations self') = describe t.
Proof.
  exists (set_details t a g (describe t) (setCurrentIndex 1 self)).
  split; [unfold view_book_details; by destruct (decide _)|].
  rewrite fetch_recommendations_eq. cbv zeta.
  cbn [book_title_label book_genre_label set_details].
  rewrite recommend_same_genre_others.
  assert (Forall (λ row : Row, row !! 0 ≠ Some (Some t))
            (rows_of (filter (same_genre_others t g) all_))) as Hrows.
  { apply rows_of_title_not_in, Forall_forall.
    by intros book [[_ ?] _]%list_elem_of_filter. }
  destruct (filter (same_genre_others t g) all_) as [|book l] eqn:E.
  - rewrite decide_True by done. by destruct self.
  - rewrite decide_False by done. by destruct self.
Qed.

(** ** What holds in every state of the application *)

Section invariant.

Lemma sublist_full {A} (l1 l2 : list A) :
  l1 `sublist_of` l2 → length l2 ≤ length l1 → l1 = l2.
Proof.
  induction 1 as [|x l1 l2 _ IH|x l1 l2 Hsub _]; simpl; intros Hlen.
  - done.
  - f_equal. apply IH. lia.
  - apply sublist_length in Hsub. lia.
Qed.

Lemma items_of_book_row book : items_of (Some <$> elements_of book) = elements_of book.
Proof. reflexivity. Qed.

(** A selection of three or more items in a table of book rows is a book
    of the table. *)
Lemma selection_of_rows books t a g rest :
  selection_of (rows_of books) (t :: a :: g :: rest) → mkBook t a g ∈ books.
Proof.
  intros [?|(row & Hrow & Hsub)]; [done|].
  apply list_elem_of_fmap in Hrow as (book & -> & Hbook).
  rewrite items_of_book_row in Hsub.
  apply sublist_full in Hsub; [|simpl; lia].
  injection Hsub as -> -> -> ->. by destruct book.
Qed.

(** The message row cannot give three items. *)
Lemma selection_of_message t a g rest :
  ¬ selection_of [no_results_row] (t :: a :: g :: rest).
Proof.
  intros [?|(row & Hrow & Hsub)]; [done|].
  apply list_elem_of_singleton in Hrow as ->.
  apply sublist_length in Hsub. simpl in Hsub. lia.
Qed.

Lemma selection_of_shown books t a g rest :
  selection_of (shown books) (t :: a :: g :: rest) → mkBook t a g ∈ books.
Proof.
  destruct books as [|book books]; simpl.
  - by intros ?%selection_of_message.
  - apply (selection_of_rows (book :: books)).
Qed.

Lemma Inv_init : Inv init.
Proof.
  split.
  - unfold init. cbv zeta. by rewrite show_all_books_table.
  - exists [], EmptyString. repeat split; [apply sublist_nil_l|done|simpl; lia].
  - simpl. lia.
  - by left.
Qed.

Lemma Inv_search_books self : Inv self → Inv (search_books self).
Proof.
  intros [_ Hrec Htab Hdet]. rewrite search_books_eq. by destruct self.
Qed.

Lemma Inv_setText text self : Inv self → Inv (search_books (setText text self)).
Proof.
  intros [_ Hrec Htab Hdet]. rewrite search_books_eq. by destruct self.
Qed.

Lemma Inv_setCurrentIndex index self :
  index < 3 → Inv self → Inv (setCurrentIndex index self).
Proof. intros Hi [Hres Hrec _ Hdet]. by destruct self. Qed.

Lemma Inv_fetch_recommendations self : Inv self → Inv (fetch_recommendations self).
Proof.
  intros [Hres _ Htab Hdet]. rewrite fetch_recommendations_eq. cbv zeta.
  rewrite recommend_same_genre_others.
  set (books := filter (same_genre_others (book_title_label self)
                                          (book_genre_label self)) all_).
  assert (∃ books' g, books' `sublist_of` all_ ∧
            Forall (λ book, genre book = g) books' ∧ length books' ≤ 4 ∧
            rows_of books = rows_of books') as Hrec.
  { exists books, (book_genre_label self). repeat split.
    - apply sublist_filter.
    - apply Forall_forall. by intros book [[? _] _]%list_elem_of_filter.
    - unfold books. rewrite <-recommend_same_genre_others, length_fmap.
      rewrite recommend_all_qualifying. apply qualifying_at_most_4. }
  clearbody books. destruct self, books; split; cbn in *; try done; lia.
Qed.

Lemma Inv_view_book_details rs rcs self self' :
  Inv self → enabled (view_details rs rcs) self →
  view_book_details rs rcs self = Some self' → Inv self'.
Proof.
  intros HI [Hrs Hrcs] Hview.
  apply view_book_details_some in Hview as [[_ ->]|(t & a & g & rest & Hsel & ->)];
    [done|].
  assert (mkBook t a g ∈ all_) as Hbook.
  { destruct HI as [Hres (books & g' & Hsub & _ & _ & Hrec) _ _].
    destruct (decide (tab_widget self = 0)); subst.
    - rewrite Hres in Hrs. apply selection_of_shown in Hrs.
      by eapply elem_of_sublist, search_sublist_all.
    - rewrite Hrec in Hrcs. apply selection_of_rows in Hrcs.
      by eapply elem_of_sublist. }
  destruct HI as [Hres Hrec _ _]. destruct self. split; try done.
  - simpl. lia.
  - right. by split.
Qed.

Lemma Inv_handle e self self' :
  Inv self → enabled e self → handle e self = Some self' → Inv self'.
Proof.
  intros HI Hen Hh. destruct e as [text| |rs rcs| | |index]; cbn in Hh.
  - injection Hh as <-. by apply Inv_setText.
  - injection Hh as <-. by apply Inv_search_books.
  - by eapply Inv_view_book_details.
  - injection Hh as <-. by apply Inv_fetch_recommendations.
  - injection Hh as <-. apply Inv_setCurrentIndex; [lia|done].
  - injection Hh as <-. by apply Inv_setCurrentIndex.
Qed.

Lemma reachable_Inv self : reachable self → Inv self.
Proof.
  induction 1 as [|self e self' _ IH Hen Hh]; [apply Inv_init|].
  by eapply Inv_handle.
Qed.

End invariant.

(** X13.  In every state of the application the results table shows the
    search result for the text in the line edit: one row per found book,
    or the message row when there is none. *)
Theorem reachable_results_in_sync (self : App) :
  reachable self →
  results_table self = shown (search (search_input self)) ∧
  results_table self = results_table (search_books self).
Proof.
  intros [Hres _ _ _]%reachable_Inv. split; [done|].
  by rewrite search_books_eq, Hres; destruct self.
Qed.

Lemma reachable_results_in_sync_witness :
  results_table init = shown (search (search_input init)).
Proof.
  apply (reachable_results_in_sync init). apply reachable_init.
Defined.

(** X14.  In every state of the application the detail view shows either
    the prompt it starts with, or title, author and genre of one book of
    the catalog together with the description [describe] gives for its
    title. *)
Theorem reachable_details_from_catalog (self : App) :
  reachable self →
  (book_title_label self = select_a_book ∧
   book_author_label self = EmptyString ∧
   book_genre_label self = EmptyString ∧
   book_description self = EmptyString) ∨
  (mkBook (book_title_label self) (book_author_label self)
          (book_genre_label self) ∈ all_ ∧
   book_description self = describe (book_title_label self)).
Proof. by intros [_ _ _ Hdet]%reachable_Inv. Qed.

Lemma reachable_details_from_catalog_witness :
  (book_title_label init = select_a_book ∧
   book_author_label init = EmptyString ∧
   book_genre_label init = EmptyString ∧
   book_description init = EmptyString) ∨
  (mkBook (book_title_label init) (book_author_label init)
          (book_genre_label init) ∈ all_ ∧
   book_description init = describe (book_title_label init)).
Proof.
  apply (reachable_details_from_catalog init). apply reachable_init.
Defined.

(** X15.  In every state of the application the recommendations table
    holds at most four rows, all of them books of the catalog of one and
    the same genre, in catalog order; and the current tab is one of the
    three tabs. *)
Theorem reachable_recommendations (self : App) :
  reachable self →
  (∃ books g, books `sublist_of` all_ ∧
              Forall (λ book, genre book = g) books ∧
              length books ≤ 4 ∧
              recommendations_table self = rows_of books) ∧
  tab_widget self < 3.
Proof. by intros [_ Hrec Htab _]%reachable_Inv. Qed.

Lemma reachable_recommendations_witness :
  tab_widget init < 3.
Proof.
  apply (reachable_recommendations init). apply reachable_init.
Defined.
